(** * PyETo: the FAO-56 estimators of [pyeto/fao.py]

    A shallow embedding of the functions of [pyeto/fao.py] and the proofs of
    their properties.

    Numbers.  A Python [float] is modelled by a real number of [R]: the
    formulas are read with exact arithmetic, so rounding, overflow,
    infinities and NaN are outside the model.  A Python [int] is a [Z], a
    Python [bool] a [bool].

    Failures.  A function that can raise returns a [result]; the exceptions
    are Python's own ([ValueError], [ZeroDivisionError], [NameError],
    [TypeError]).  The arithmetic that can raise on real inputs is modelled
    as such: [/] on a zero divisor, [math.sqrt] and [math.acos] outside
    their domains.

    Names.  A function that calls a validator looks its name up in the
    globals of the module when the call is made, so these functions take
    the namespace they run in; [fao_globals] is the one [fao.py] builds.

    Values.  [x ** y] on floats is the one operation of the module that can
    leave the floats (a negative base with a fractional exponent gives a
    [complex]), so the result of [hargreaves] is a [pyval]. *)

From Stdlib Require Import Reals Lra Lia ZArith String List.
Import ListNotations.

Open Scope R_scope.

(** * The Python runtime, as far as [fao.py] uses it *)

Module Py.

Inductive exn : Type :=
| ValueError
| ZeroDivisionError
| NameError (name : string)
| TypeError.

(** The specification speaks of [DomainError] and [InvalidArgument]; the
    code raises [ValueError] for both (the [math] functions on a domain
    error, the explicit [raise ValueError(...)] on an argument). *)
Definition DomainError : exn := ValueError.
Definition InvalidArgument : exn := ValueError.

Inductive result (A : Type) : Type :=
| Ok (a : A)
| Raise (e : exn).

Arguments Ok {A} a.
Arguments Raise {A} e.

Definition bind {A B : Type} (m : result A) (k : A -> result B) : result B :=
  match m with
  | Ok a => k a
  | Raise e => Raise e
  end.

Definition returns {A : Type} (m : result A) : bool :=
  match m with
  | Ok _ => true
  | Raise _ => false
  end.

(** ** Floats *)

(** [x / y] *)
Definition truediv (x y : R) : result R :=
  if Req_dec_T y 0 then Raise ZeroDivisionError else Ok (x / y).

(** [max(a, b)] and [min(a, b)]: the first argument unless the second is
    strictly beyond it. *)
Definition max (a b : R) : R := if Rlt_dec a b then b else a.
Definition min (a b : R) : R := if Rlt_dec b a then b else a.

(** ** The [math] module *)

Definition math_pi : R := PI.

Definition math_exp (x : R) : result R := Ok (exp x).
Definition math_sin (x : R) : result R := Ok (sin x).
Definition math_cos (x : R) : result R := Ok (cos x).
Definition math_tan (x : R) : result R := Ok (tan x).

Definition math_sqrt (x : R) : result R :=
  if Rlt_dec x 0 then Raise ValueError else Ok (sqrt x).

Definition math_acos (x : R) : result R :=
  if Rlt_dec x (-1) then Raise ValueError
  else if Rlt_dec 1 x then Raise ValueError
  else Ok (acos x).

(** ** Values: floats and complex numbers *)

Inductive pyval : Type :=
| PyFloat (x : R)
| PyComplex (re im : R).

Definition to_complex (v : pyval) : R * R :=
  match v with
  | PyFloat x => (x, 0)
  | PyComplex re im => (re, im)
  end.

(** [a * b]: a product of floats is a float; with a complex operand the
    other one is coerced and the product is the complex one. *)
Definition mul (a b : pyval) : pyval :=
  match a, b with
  | PyFloat x, PyFloat y => PyFloat (x * y)
  | _, _ =>
      let '(ar, ai) := to_complex a in
      let '(br, bi) := to_complex b in
      PyComplex (ar * br - ai * bi) (ar * bi + ai * br)
  end.

Definition is_integer (y : R) : bool :=
  if Req_dec_T (IZR (Int_part y)) y then true else false.

(** [x ** y] on two floats.  A zero base raises on a negative exponent.
    A negative base with an exponent that is not an integer gives the
    complex power, computed in polar form from the modulus [-x] and the
    argument [pi]. *)
Definition float_pow (x y : R) : result pyval :=
  if Rlt_dec 0 x then Ok (PyFloat (Rpower x y))
  else if Req_dec_T x 0 then
    if Rlt_dec 0 y then Ok (PyFloat 0)
    else if Req_dec_T y 0 then Ok (PyFloat 1)
    else Raise ZeroDivisionError
  else if is_integer y then Ok (PyFloat (powerRZ x (Int_part y)))
  else Ok (PyComplex (Rpower (- x) y * cos (PI * y))
                     (Rpower (- x) y * sin (PI * y))).

(** ** Names *)

(** What a global name of the module can be bound to, as far as the
    functions use one: a number, or a function called for its checks (it
    returns nothing or raises), with one argument or with a number and the
    name of the checked argument. *)
Inductive object : Type :=
| Number (x : R)
| Function1 (f : R -> result unit)
| Function2 (f : R -> string -> result unit).

(** The globals of a module, and the local variables of a call (the
    parameters), by name. *)
Definition namespace : Type := list (string * object).
Definition frame : Type := list (string * R).

Fixpoint lookup {A : Type} (x : string) (l : list (string * A)) : option A :=
  match l with
  | [] => None
  | (y, v) :: l' => if String.eqb x y then Some v else lookup x l'
  end.

(** Reading a global: a name the module binds nothing to raises
    [NameError] (none of the names read this way is a builtin). *)
Definition load_global (globals : namespace) (x : string) : result object :=
  match lookup x globals with
  | Some o => Ok o
  | None => Raise (NameError x)
  end.

(** Reading a variable inside a call: the parameters first, then the
    globals.  The variables read this way are used as numbers. *)
Definition load_name (locals : frame) (globals : namespace) (x : string)
    : result R :=
  match lookup x locals with
  | Some v => Ok v
  | None =>
      match load_global globals x with
      | Ok (Number v) => Ok v
      | Ok _ => Raise TypeError
      | Raise e => Raise e
      end
  end.

(** [f(x)] and [f(x, name)], the callee already read: a number is not
    callable, and a function takes the arguments it was defined with. *)
Definition call1 (f : object) (x : R) : result unit :=
  match f with
  | Function1 c => c x
  | _ => Raise TypeError
  end.

Definition call2 (f : object) (x : R) (name : string) : result unit :=
  match f with
  | Function2 c => c x name
  | _ => Raise TypeError
  end.

(** [math.log(x)]: a domain error on an argument that is not positive. *)
Definition math_log (x : R) : result R :=
  if Rlt_dec 0 x then Ok (ln x) else Raise ValueError.

(** [math.pow(x, y)]: unlike [x ** y] it stays in the floats, and raises
    [ValueError] where the real power does not exist (a negative base with
    an exponent that is not an integer, a zero base with a negative
    exponent). *)
Definition math_pow (x y : R) : result R :=
  if Rlt_dec 0 x then Ok (Rpower x y)
  else if Req_dec_T x 0 then
    if Rlt_dec 0 y then Ok 0
    else if Req_dec_T y 0 then Ok 1
    else Raise ValueError
  else if is_integer y then Ok (powerRZ x (Int_part y))
  else Raise ValueError.

(** ** Arguments with a default value *)

Definition default_arg (given : option R) (default : R) : R :=
  match given with
  | Some v => v
  | None => default
  end.

End Py.

Export Py.

Notation "x <- m ;; k" := (bind m (fun x => k))
  (at level 61, m at next level, right associativity).

(** * The validators of [pyeto/_check.py] *)

Module Validators.

(** Modelled from the spec: the module [_check] that line 18 of [fao.py]
    imports [check_latitude_in_radians] from is not among the sources.
    "validate latitude in radians: fails with DomainError if the value
    falls outside [-pi/2, pi/2]". *)
Definition check_latitude_in_radians (latitude : R) : result unit :=
  if Rlt_dec latitude (- (math_pi / 2)) then Raise DomainError
  else if Rlt_dec (math_pi / 2) latitude then Raise DomainError
  else Ok tt.

(** Modelled from the spec: [_check] is not among the sources, and
    [fao.py] imports no validator of the declination from it.  "solar
    declination in radians: fails with DomainError if outside
    [-0.4093, 0.4093]". *)
Definition check_solar_declination_in_radians (sd : R) : result unit :=
  if Rlt_dec sd (- 0.4093) then Raise DomainError
  else if Rlt_dec 0.4093 sd then Raise DomainError
  else Ok tt.

(** Modelled from the spec: [_check], which line 18 imports [check_doy]
    from, is not among the sources.  "validate day-of-year: fails with
    DomainError if the integer is outside [1, 366]".  The day reaches the
    validator as the number it is. *)
Definition check_doy (doy : R) : result unit :=
  if Rlt_dec doy 1 then Raise DomainError
  else if Rlt_dec 366 doy then Raise DomainError
  else Ok tt.

(** Modelled from the spec: [_check] is not among the sources, and
    [fao.py] imports no validator of day hours from it.  "validates both
    hour values are within [0, 24] (DomainError otherwise)"; the second
    argument is the name of the checked argument, for the message. *)
Definition check_day_hours (hours : R) (arg_name : string) : result unit :=
  if Rlt_dec hours 0 then Raise DomainError
  else if Rlt_dec 24 hours then Raise DomainError
  else Ok tt.

End Validators.

Export Validators.

(** * The estimators of [pyeto/fao.py] *)

Module Fao.

(** Solar constant [MJ m-2 min-1] *)
Definition SOLAR_CONSTANT : R := 0.0820.

(** Stefan-Boltzmann constant [MJ K-4 m-2 day-1] *)
Definition STEFAN_BOLTZMANN_CONSTANT : R := 0.000000004903.

(** The globals of the module, as its statements bind them: line 18,
    [from ._check import check_latitude_in_radians, check_doy], and the
    two constants.  The module also binds [math], which the functions
    reach through the [math_] operations, and its own functions, which
    call one another directly; no function of the module is named like a
    validator or [sun_hours].  The calls of the validators are written
    with a leading underscore ([_check_doy(doy)]), and these are names the
    module binds nothing to. *)
Definition fao_globals : namespace :=
  [ ("check_latitude_in_radians"%string,
     Function1 check_latitude_in_radians);
    ("check_doy"%string, Function1 check_doy);
    ("SOLAR_CONSTANT"%string, Number SOLAR_CONSTANT);
    ("STEFAN_BOLTZMANN_CONSTANT"%string, Number STEFAN_BOLTZMANN_CONSTANT) ].

Definition daily_mean_t (tmin tmax : R) : result R :=
  truediv (tmax + tmin) 2.0.

Definition ea_from_tmin (tmin : R) : result R :=
  q <- truediv (17.27 * tmin) (tmin + 237.3) ;;
  e <- math_exp q ;;
  Ok (0.611 * e).

Definition ea_from_tdew (tdew : R) : result R :=
  q <- truediv (17.27 * tdew) (tdew + 237.3) ;;
  e <- math_exp q ;;
  Ok (0.6108 * e).

Definition es_from_t (t : R) : result R :=
  q <- truediv (17.27 * t) (t + 237.3) ;;
  e <- math_exp q ;;
  Ok (0.6108 * e).

(** The callee of each check is read from the globals before the call.
    The source checks the declination on [latitude], not on [sd]. *)
Definition et_radiation
    (globals : namespace) (latitude sd sha irl : R) : result R :=
  check <- load_global globals "_check_latitude_in_radians" ;;
  _ <- call1 check latitude ;;
  check <- load_global globals "_check_solar_declination_in_radians" ;;
  _ <- call1 check latitude ;;
  tmp1 <- truediv (24.0 * 60.0) math_pi ;;
  sin_lat <- math_sin latitude ;;
  sin_sd <- math_sin sd ;;
  let tmp2 := sha * sin_lat * sin_sd in
  cos_lat <- math_cos latitude ;;
  cos_sd <- math_cos sd ;;
  sin_sha <- math_sin sha ;;
  let tmp3 := cos_lat * cos_sd * sin_sha in
  Ok (tmp1 * SOLAR_CONSTANT * irl * (tmp2 + tmp3)).

(** [0.0023 * (tmean + 17.8) * (tmax - tmin) ** 0.5 * Ra]: the power binds
    tighter than the products, which associate to the left. *)
Definition hargreaves (tmin tmax tmean Ra : R) : result pyval :=
  p <- float_pow (tmax - tmin) 0.5 ;;
  Ok (mul (mul (PyFloat (0.0023 * (tmean + 17.8))) p) (PyFloat Ra)).

Definition inv_rel_dist_earth_sun
    (globals : namespace) (doy : Z) : result R :=
  check <- load_global globals "_check_doy" ;;
  _ <- call1 check (IZR doy) ;;
  w <- truediv (2.0 * math_pi) 365.0 ;;
  c <- math_cos (w * IZR doy) ;;
  Ok (1 + (0.033 * c)).

Definition mean_es (tmin tmax : R) : result R :=
  es_tmin <- es_from_t tmin ;;
  es_tmax <- es_from_t tmax ;;
  truediv (es_tmin + es_tmax) 2.0.

Definition monthly_soil_heat_flux (t_month_prev t_month_next : R) : R :=
  0.07 * (t_month_next - t_month_prev).

Definition monthly_soil_heat_flux2 (t_month_prev t_month_cur : R) : R :=
  0.14 * (t_month_cur - t_month_prev).

Definition psychrometric_const (atmos_pres : R) : R :=
  0.000665 * atmos_pres.

Definition psychrometric_const_of_psychrometer
    (psychrometer : Z) (atmos_pres : R) : result R :=
  psy_coeff <-
    (if (psychrometer =? 1)%Z then Ok 0.000662
     else if (psychrometer =? 2)%Z then Ok 0.000800
     else if (psychrometer =? 3)%Z then Ok 0.001200
     else Raise ValueError) ;;
  Ok (psy_coeff * atmos_pres).

Definition solar_declination (globals : namespace) (doy : Z) : result R :=
  check <- load_global globals "_check_doy" ;;
  _ <- call1 check (IZR doy) ;;
  w <- truediv (2.0 * math_pi) 365.0 ;;
  s <- math_sin (w * IZR doy - 1.39) ;;
  Ok (0.409 * s).

(** The two checks of the source read [_check day_hours(...)], with a
    blank where the validator's name has an underscore, which does not
    parse; they are read as calls of [_check_day_hours].  A call reads its
    callee first and then its arguments.  The first check is on
    [sun_hours], which is not a parameter of the function
    ([sunshine_hours] is), so the variables are read through the frame of
    the call and the globals. *)
Definition solar_radiation_from_sun_hours
    (globals : namespace) (daylight_hours sunshine_hours et_rad : R)
    : result R :=
  let locals : frame :=
    [ ("daylight_hours"%string, daylight_hours);
      ("sunshine_hours"%string, sunshine_hours);
      ("et_rad"%string, et_rad) ] in
  check <- load_global globals "_check_day_hours" ;;
  a <- load_name locals globals "sun_hours" ;;
  _ <- call2 check a "sun_hours" ;;
  check <- load_global globals "_check_day_hours" ;;
  b <- load_name locals globals "daylight_hours" ;;
  _ <- call2 check b "daylight_hours" ;;
  s <- load_name locals globals "sunshine_hours" ;;
  d <- load_name locals globals "daylight_hours" ;;
  q <- truediv (0.5 * s) d ;;
  r <- load_name locals globals "et_rad" ;;
  Ok ((q + 0.25) * r).

Definition solar_radiation_from_t
    (et_rad cs_rad tmin tmax : R) (coastal : bool) : result R :=
  let adj := if coastal then 0.19 else 0.16 in
  r <- math_sqrt (tmax - tmin) ;;
  let solar_rad := adj * r * et_rad in
  Ok (min solar_rad cs_rad).

Definition sunset_hour_angle
    (globals : namespace) (latitude sd : R) : result R :=
  check <- load_global globals "_check_latitude_in_radians" ;;
  _ <- call1 check latitude ;;
  check <- load_global globals "_check_solar_declination_in_radians" ;;
  _ <- call1 check sd ;;
  tan_lat <- math_tan latitude ;;
  tan_sd <- math_tan sd ;;
  let tmp := - tan_lat * tan_sd in
  let tmp := max tmp (-1.0) in
  let tmp := min tmp 1.0 in
  math_acos tmp.

Definition atmospheric_pressure (altitude : R) : result R :=
  tmp <- truediv (293.0 - (0.0065 * altitude)) 293.0 ;;
  p <- math_pow tmp 5.26 ;;
  Ok (p * 101.3).

Definition clear_sky_radiation (altitude et_rad : R) : R :=
  (0.00002 * altitude + 0.75) * et_rad.

(** [soil_heat_cap] defaults to 2.1 and [delta_z] to 0.1. *)
Definition daily_soil_heat_flux
    (t_cur t_prev delta_t : R) (soil_heat_cap delta_z : option R)
    : result R :=
  let soil_heat_cap := default_arg soil_heat_cap 2.1 in
  let delta_z := default_arg delta_z 0.1 in
  if Rlt_dec delta_t 1.0 then Raise ValueError
  else
    q <- truediv (t_cur - t_prev) delta_t ;;
    Ok (soil_heat_cap * q * delta_z).

Definition daylight_hours (sha : R) : result R :=
  c <- truediv 24.0 math_pi ;;
  Ok (c * sha).

Definition delta_sat_vap_pressure (t : R) : result R :=
  q <- truediv (17.27 * t) (t + 237.3) ;;
  e <- math_exp q ;;
  let tmp := 4098 * (0.6108 * e) in
  p <- math_pow (t + 237.3) 2 ;;
  truediv tmp p.

Definition ea_from_rhmin_rhmax (e_tmin e_tmax rh_min rh_max : R) : result R :=
  a <- truediv rh_max 100.0 ;;
  let tmp1 := e_tmin * a in
  b <- truediv rh_min 100.0 ;;
  let tmp2 := e_tmax * b in
  truediv (tmp1 + tmp2) 2.0.

Definition ea_from_rhmax (e_tmin rh_max : R) : result R :=
  a <- truediv rh_max 100.0 ;;
  Ok (e_tmin * a).

Definition ea_from_rhmean (e_tmin e_tmax rh_mean : R) : result R :=
  a <- truediv rh_mean 100.0 ;;
  b <- truediv (e_tmax + e_tmin) 2.0 ;;
  Ok (a * b).

Definition ea_from_twet_tdry (twet tdry e_twet psy_const : R) : R :=
  e_twet - (psy_const * (tdry - twet)).

Definition energy2equiv_evaporation (energy : R) : R :=
  0.408 * energy.

(** [shf] defaults to 0.0.  The quotients of a product chain are taken in
    the order of the source: [a * b / c] is [(a * b) / c]. *)
Definition fao_penman_monteith
    (Rn t ws es ea delta_es psy : R) (shf : option R) : result R :=
  let shf := default_arg shf 0.0 in
  a1 <- truediv (0.408 * (Rn - shf) * delta_es)
                (delta_es + (psy * (1 + 0.34 * ws))) ;;
  w <- truediv (900 * ws) t ;;
  a2 <- truediv (w * (es - ea) * psy)
                (delta_es + (psy * (1 + 0.34 * ws))) ;;
  Ok (a1 + a2).

(** [albedo] defaults to 0.23. *)
Definition net_incoming_solar_radiation
    (sol_rad : R) (albedo : option R) : R :=
  let albedo := default_arg albedo 0.23 in
  (1 - albedo) * sol_rad.

Definition net_outgoing_longwave_radiation
    (tmin tmax sol_rad clear_sky_rad ea : R) : result R :=
  pmax <- math_pow tmax 4 ;;
  pmin <- math_pow tmin 4 ;;
  h <- truediv (pmax + pmin) 2 ;;
  let tmp1 := STEFAN_BOLTZMANN_CONSTANT * h in
  r <- math_sqrt ea ;;
  let tmp2 := 0.34 - (0.14 * r) in
  c <- truediv sol_rad clear_sky_rad ;;
  let tmp3 := 1.35 * c - 0.35 in
  Ok (tmp1 * tmp2 * tmp3).

Definition net_radiation (ni_sw_rad no_lw_rad : R) : R :=
  ni_sw_rad - no_lw_rad.

Definition rh_from_ea_es (ea es : R) : result R :=
  truediv (100.0 * ea) es.

Definition solar_radiation_island (et_rad : R) : R :=
  (0.7 * et_rad) - 4.0.

Definition wind_speed_2m (meas_ws z : R) : result R :=
  l <- math_log ((67.8 * z) - 5.42) ;;
  q <- truediv 4.87 l ;;
  Ok (meas_ws * q).

End Fao.

Export Fao.

(** * The namespace the calls are written for *)

(** Modelled from the spec: the globals of [fao.py] with, in addition,
    each name its calls use bound to the validator the spec describes for
    it.  No statement of [fao.py] builds this namespace; it is the one in
    which the calls of the validators find their callees. *)
Definition expected_globals : namespace :=
  [ ("_check_latitude_in_radians"%string,
     Function1 check_latitude_in_radians);
    ("_check_solar_declination_in_radians"%string,
     Function1 check_solar_declination_in_radians);
    ("_check_doy"%string, Function1 check_doy);
    ("_check_day_hours"%string, Function2 check_day_hours) ]
  ++ fao_globals.

(** * Properties *)

(** ** The runtime *)

Lemma truediv_nonzero (x y : R) : y <> 0 -> truediv x y = Ok (x / y).
Proof.
  intros Hy. unfold truediv.
  destruct (Req_dec_T y 0) as [E | _]; [contradiction | reflexivity].
Qed.

Lemma truediv_zero (x : R) : truediv x 0 = Raise ZeroDivisionError.
Proof.
  unfold truediv.
  destruct (Req_dec_T 0 0) as [_ | N]; [reflexivity | now elim N].
Qed.

Lemma math_pi_nonzero : math_pi <> 0.
Proof. unfold math_pi. apply Rgt_not_eq, PI_RGT_0. Qed.

Lemma min_le_r (a b : R) : min a b <= b.
Proof. unfold min. destruct (Rlt_dec b a); lra. Qed.

Lemma min_le_l (a b : R) : min a b <= a.
Proof. unfold min. destruct (Rlt_dec b a); lra. Qed.

Lemma max_ge_r (a b : R) : b <= max a b.
Proof. unfold max. destruct (Rlt_dec a b); lra. Qed.

Lemma min_Rmin (a b : R) : min a b = Rmin a b.
Proof.
  unfold min, Rmin.
  destruct (Rlt_dec b a), (Rle_dec a b); lra.
Qed.

Lemma max_Rmax (a b : R) : max a b = Rmax a b.
Proof.
  unfold max, Rmax.
  destruct (Rlt_dec a b), (Rle_dec a b); lra.
Qed.

Lemma math_sqrt_nonneg (x : R) : 0 <= x -> math_sqrt x = Ok (sqrt x).
Proof.
  intros Hx. unfold math_sqrt.
  destruct (Rlt_dec x 0); [lra | reflexivity].
Qed.

Lemma math_sqrt_neg (x : R) : x < 0 -> math_sqrt x = Raise ValueError.
Proof.
  intros Hx. unfold math_sqrt.
  destruct (Rlt_dec x 0); [reflexivity | lra].
Qed.

Lemma math_acos_in_domain (x : R) :
  -1 <= x <= 1 -> math_acos x = Ok (acos x).
Proof.
  intros [Hl Hu]. unfold math_acos.
  destruct (Rlt_dec x (-1)); [lra |].
  destruct (Rlt_dec 1 x); [lra | reflexivity].
Qed.

(** ** The validators *)

Lemma check_latitude_ok (latitude : R) :
  - (PI / 2) <= latitude <= PI / 2 ->
  check_latitude_in_radians latitude = Ok tt.
Proof.
  intros [Hl Hu]. unfold check_latitude_in_radians, math_pi.
  destruct (Rlt_dec latitude (- (PI / 2))); [lra |].
  destruct (Rlt_dec (PI / 2) latitude); [lra | reflexivity].
Qed.

Lemma check_solar_declination_ok (sd : R) :
  - 0.4093 <= sd <= 0.4093 ->
  check_solar_declination_in_radians sd = Ok tt.
Proof.
  intros [Hl Hu]. unfold check_solar_declination_in_radians.
  destruct (Rlt_dec sd (- 0.4093)); [lra |].
  destruct (Rlt_dec 0.4093 sd); [lra | reflexivity].
Qed.

Lemma check_solar_declination_fails (sd : R) :
  sd < - 0.4093 \/ 0.4093 < sd ->
  check_solar_declination_in_radians sd = Raise DomainError.
Proof.
  intros H. unfold check_solar_declination_in_radians.
  destruct (Rlt_dec sd (- 0.4093)); [reflexivity |].
  destruct (Rlt_dec 0.4093 sd); [reflexivity | lra].
Qed.

Lemma check_doy_ok (doy : Z) :
  (1 <= doy <= 366)%Z -> check_doy (IZR doy) = Ok tt.
Proof.
  intros [Hl Hu]. apply IZR_le in Hl, Hu. unfold check_doy.
  destruct (Rlt_dec (IZR doy) 1); [lra |].
  destruct (Rlt_dec 366 (IZR doy)); [lra | reflexivity].
Qed.

(** ** Names *)

(** The names the calls of the validators use are bound in the namespace
    the calls are written for, and [sun_hours] is bound in neither. *)
Lemma expected_check_latitude :
  load_global expected_globals "_check_latitude_in_radians"
    = Ok (Function1 check_latitude_in_radians).
Proof. reflexivity. Qed.

Lemma expected_check_solar_declination :
  load_global expected_globals "_check_solar_declination_in_radians"
    = Ok (Function1 check_solar_declination_in_radians).
Proof. reflexivity. Qed.

Lemma expected_check_doy :
  load_global expected_globals "_check_doy" = Ok (Function1 check_doy).
Proof. reflexivity. Qed.

(** ** Saturation vapour pressure *)

Lemma es_from_t_value (t : R) :
  t + 237.3 <> 0 ->
  es_from_t t = Ok (0.6108 * exp (17.27 * t / (t + 237.3))).
Proof.
  intros Ht. unfold es_from_t.
  rewrite truediv_nonzero by exact Ht. reflexivity.
Qed.

Lemma es_from_t_pole : es_from_t (- 237.3) = Raise ZeroDivisionError.
Proof.
  unfold es_from_t.
  replace (- 237.3 + 237.3) with 0 by lra.
  rewrite truediv_zero. reflexivity.
Qed.

Lemma ea_from_tmin_value (tmin : R) :
  tmin + 237.3 <> 0 ->
  ea_from_tmin tmin = Ok (0.611 * exp (17.27 * tmin / (tmin + 237.3))).
Proof.
  intros Ht. unfold ea_from_tmin.
  rewrite truediv_nonzero by exact Ht. reflexivity.
Qed.

(** The estimate from the dewpoint is the saturation formula itself. *)
Lemma ea_from_tdew_is_es_from_t (tdew : R) :
  ea_from_tdew tdew = es_from_t tdew.
Proof. reflexivity. Qed.

(** C3, as stated, fails: at 0 degrees [ea_from_tmin] gives 0.611 and
    [es_from_t] gives 0.6108. *)
Lemma ea_from_tmin_differs_from_es_from_t :
  ea_from_tmin 0 <> es_from_t 0.
Proof.
  rewrite ea_from_tmin_value, es_from_t_value by lra.
  replace (17.27 * 0 / (0 + 237.3)) with 0 by (unfold Rdiv; ring).
  rewrite exp_0. intros E. injection E as E. lra.
Qed.

(** C3, amended: away from the pole t = -237.3, [ea_from_tmin t] is
    [0.611 * exp(17.27*t/(t+237.3))], the coefficient of FAO equation 48,
    where [es_from_t t] is [0.6108 * exp(17.27*t/(t+237.3))]. *)
Theorem ea_from_tmin_spec (t : R) :
  t + 237.3 <> 0 ->
  ea_from_tmin t = Ok (0.611 * exp (17.27 * t / (t + 237.3))) /\
  es_from_t t = Ok (0.6108 * exp (17.27 * t / (t + 237.3))).
Proof.
  intros Ht. split.
  - apply ea_from_tmin_value, Ht.
  - apply es_from_t_value, Ht.
Qed.

Lemma ea_from_tmin_spec_witness :
  20 + 237.3 <> 0 /\
  ea_from_tmin 20 = Ok (0.611 * exp (17.27 * 20 / (20 + 237.3))) /\
  es_from_t 20 = Ok (0.6108 * exp (17.27 * 20 / (20 + 237.3))).
Proof.
  split; [lra | apply (ea_from_tmin_spec 20); lra].
Defined.

(** C9: the mean saturation vapour pressure of two identical temperatures
    is the saturation vapour pressure at that temperature (at the pole
    t = -237.3 both raise [ZeroDivisionError]). *)
Theorem mean_es_same (t : R) : mean_es t t = es_from_t t.
Proof.
  unfold mean_es.
  destruct (es_from_t t) as [e | x]; simpl; [| reflexivity].
  rewrite truediv_nonzero by lra.
  f_equal. lra.
Qed.

(** ** Soil heat flux *)

(** C10: the estimator without the next month's temperature is twice the
    one with it, on the same pair of temperatures. *)
Theorem monthly_soil_heat_flux2_twice (a b : R) :
  monthly_soil_heat_flux2 a b = 2 * monthly_soil_heat_flux a b.
Proof.
  unfold monthly_soil_heat_flux2, monthly_soil_heat_flux. lra.
Qed.

(** ** Psychrometric constant *)

(** C7: the coefficient is 0.000662, 0.000800 or 0.001200 for the types 1,
    2 and 3, and the function raises the [ValueError] of its last branch
    exactly when the type is none of the three. *)
Theorem psychrometric_const_of_psychrometer_spec
    (psychrometer : Z) (atmos_pres : R) :
  psychrometric_const_of_psychrometer 1 atmos_pres
    = Ok (0.000662 * atmos_pres) /\
  psychrometric_const_of_psychrometer 2 atmos_pres
    = Ok (0.000800 * atmos_pres) /\
  psychrometric_const_of_psychrometer 3 atmos_pres
    = Ok (0.001200 * atmos_pres) /\
  (psychrometric_const_of_psychrometer psychrometer atmos_pres
     = Raise InvalidArgument
   <-> ~ In psychrometer [1; 2; 3]%Z) /\
  (returns (psychrometric_const_of_psychrometer psychrometer atmos_pres)
     = false
   <-> ~ In psychrometer [1; 2; 3]%Z).
Proof.
  repeat split; try reflexivity; unfold psychrometric_const_of_psychrometer.
  - destruct (Z.eqb_spec psychrometer 1) as [-> | N1]; [discriminate |].
    destruct (Z.eqb_spec psychrometer 2) as [-> | N2]; [discriminate |].
    destruct (Z.eqb_spec psychrometer 3) as [-> | N3]; [discriminate |].
    intros _ [E | [E | [E | []]]]; congruence.
  - intros H.
    destruct (Z.eqb_spec psychrometer 1) as [-> | N1]; [elim H; simpl; tauto |].
    destruct (Z.eqb_spec psychrometer 2) as [-> | N2]; [elim H; simpl; tauto |].
    destruct (Z.eqb_spec psychrometer 3) as [-> | N3]; [elim H; simpl; tauto |].
    reflexivity.
  - destruct (Z.eqb_spec psychrometer 1) as [-> | N1]; [discriminate |].
    destruct (Z.eqb_spec psychrometer 2) as [-> | N2]; [discriminate |].
    destruct (Z.eqb_spec psychrometer 3) as [-> | N3]; [discriminate |].
    intros _ [E | [E | [E | []]]]; congruence.
  - intros H.
    destruct (Z.eqb_spec psychrometer 1) as [-> | N1]; [elim H; simpl; tauto |].
    destruct (Z.eqb_spec psychrometer 2) as [-> | N2]; [elim H; simpl; tauto |].
    destruct (Z.eqb_spec psychrometer 3) as [-> | N3]; [elim H; simpl; tauto |].
    reflexivity.
Qed.

(** ** Radiation *)

Lemma inv_rel_dist_earth_sun_unbound (doy : Z) :
  inv_rel_dist_earth_sun fao_globals doy = Raise (NameError "_check_doy").
Proof. reflexivity. Qed.

(** What the function computes once its check finds its callee: with
    [_check_doy] bound to the validator of the day of the year, a day in
    [1, 366] gives a value in [0.967, 1.033]. *)
Lemma inv_rel_dist_earth_sun_expected (doy : Z) :
  (1 <= doy <= 366)%Z ->
  exists v : R,
    inv_rel_dist_earth_sun expected_globals doy = Ok v /\
    0.967 <= v <= 1.033.
Proof.
  intros Hdoy. unfold inv_rel_dist_earth_sun.
  rewrite expected_check_doy. cbn [bind call1].
  rewrite check_doy_ok by exact Hdoy. cbn [bind].
  rewrite truediv_nonzero by lra. cbn [bind math_cos].
  eexists. split; [reflexivity |].
  pose proof (COS_bound (2.0 * math_pi / 365.0 * IZR doy)) as [Hl Hu]. lra.
Qed.

(** C8: the code does not do what the claim says.  Day 1 is a valid day of
    the year, for which the claim promises a value in [0.967, 1.033]; the
    call raises [NameError] on [_check_doy], a name the module binds
    nothing to (line 18 imports [check_doy]), and so does every other
    call: the function returns for no day. *)
Theorem inv_rel_dist_earth_sun_raises :
  inv_rel_dist_earth_sun fao_globals 1 = Raise (NameError "_check_doy") /\
  (forall v : R, inv_rel_dist_earth_sun fao_globals 1 <> Ok v) /\
  (forall doy : Z, returns (inv_rel_dist_earth_sun fao_globals doy) = false).
Proof.
  split; [apply inv_rel_dist_earth_sun_unbound |].
  split.
  - intros v. rewrite inv_rel_dist_earth_sun_unbound. discriminate.
  - intros doy. rewrite inv_rel_dist_earth_sun_unbound. reflexivity.
Qed.

(** C6: with tmax >= tmin the estimate is the Hargreaves radiation formula
    capped by the clear sky radiation, so it never exceeds [cs_rad]. *)
Theorem solar_radiation_from_t_spec
    (et_rad cs_rad tmin tmax : R) (coastal : bool) :
  tmin <= tmax ->
  exists v : R,
    solar_radiation_from_t et_rad cs_rad tmin tmax coastal = Ok v /\
    v = Rmin ((if coastal then 0.19 else 0.16) * sqrt (tmax - tmin) * et_rad)
             cs_rad /\
    v <= cs_rad.
Proof.
  intros Ht. unfold solar_radiation_from_t.
  rewrite math_sqrt_nonneg by lra. simpl.
  eexists. split; [reflexivity |]. split.
  - apply min_Rmin.
  - apply min_le_r.
Qed.

Lemma solar_radiation_from_t_spec_witness :
  10 <= 25 /\
  exists v : R,
    solar_radiation_from_t 25 20 10 25 false = Ok v /\
    v = Rmin ((if false then 0.19 else 0.16) * sqrt (25 - 10) * 25) 20 /\
    v <= 20.
Proof.
  split; [lra | apply (solar_radiation_from_t_spec 25 20 10 25 false); lra].
Defined.

Lemma clamp_in_acos_domain (x : R) : -1 <= min (max x (-1.0)) 1.0 <= 1.
Proof.
  split.
  - unfold min. destruct (Rlt_dec 1.0 (max x (-1.0))); [lra |].
    pose proof (max_ge_r x (-1.0)). lra.
  - pose proof (min_le_r (max x (-1.0)) 1.0). lra.
Qed.

Lemma sunset_hour_angle_unbound (latitude sd : R) :
  sunset_hour_angle fao_globals latitude sd
    = Raise (NameError "_check_latitude_in_radians").
Proof. reflexivity. Qed.

(** What the function computes once its checks find their callees: with
    the two names bound to the validators of the latitude and of the
    declination, valid angles give a value in [0, pi], whatever the
    product of the tangents. *)
Lemma sunset_hour_angle_expected (latitude sd : R) :
  - (PI / 2) <= latitude <= PI / 2 ->
  - 0.4093 <= sd <= 0.4093 ->
  exists w : R,
    sunset_hour_angle expected_globals latitude sd = Ok w /\ 0 <= w <= PI.
Proof.
  intros Hlat Hsd. unfold sunset_hour_angle.
  rewrite expected_check_latitude. cbn [bind call1].
  rewrite check_latitude_ok by exact Hlat. cbn [bind].
  rewrite expected_check_solar_declination. cbn [bind call1].
  rewrite check_solar_declination_ok by exact Hsd. cbn [bind math_tan].
  rewrite math_acos_in_domain by apply clamp_in_acos_domain.
  eexists. split; [reflexivity | apply acos_bound].
Qed.

(** C5: the code does not do what the claim says.  The equator and a
    declination of 0 are valid angles, for which the claim promises a
    value in [0, pi]; the call raises [NameError] on
    [_check_latitude_in_radians], a name the module binds nothing to
    (line 18 imports [check_latitude_in_radians]), and so does every other
    call: the clamp and [math.acos] are never reached. *)
Theorem sunset_hour_angle_raises :
  sunset_hour_angle fao_globals 0 0
    = Raise (NameError "_check_latitude_in_radians") /\
  (forall w : R, sunset_hour_angle fao_globals 0 0 <> Ok w) /\
  (forall latitude sd : R,
     returns (sunset_hour_angle fao_globals latitude sd) = false).
Proof.
  split; [apply sunset_hour_angle_unbound |].
  split.
  - intros w. rewrite sunset_hour_angle_unbound. discriminate.
  - intros latitude sd. rewrite sunset_hour_angle_unbound. reflexivity.
Qed.

Lemma solar_radiation_from_sun_hours_unbound
    (daylight_hours sunshine_hours et_rad : R) :
  solar_radiation_from_sun_hours fao_globals
    daylight_hours sunshine_hours et_rad
    = Raise (NameError "_check_day_hours").
Proof. reflexivity. Qed.

(** With [_check_day_hours] bound, the first check still fails: its
    argument [sun_hours] is neither a parameter nor a global. *)
Lemma solar_radiation_from_sun_hours_unbound_argument
    (daylight_hours sunshine_hours et_rad : R) :
  solar_radiation_from_sun_hours expected_globals
    daylight_hours sunshine_hours et_rad
    = Raise (NameError "sun_hours").
Proof. reflexivity. Qed.

(** C4: the code does not do what the claim says.  Twelve hours of
    daylight, six of sunshine and 20 MJ m-2 day-1 are valid arguments, for
    which the claim promises (0.5*6/12 + 0.25) * 20 = 10; the call raises
    [NameError] on [_check_day_hours], the callee of its first check, and
    with that name bound it raises [NameError] on [sun_hours], the
    argument of that check.  Thirty hours of sunshine raise the same
    [NameError], not the [DomainError] of the claim. *)
Theorem solar_radiation_from_sun_hours_raises :
  solar_radiation_from_sun_hours fao_globals 12 6 20
    = Raise (NameError "_check_day_hours") /\
  solar_radiation_from_sun_hours expected_globals 12 6 20
    = Raise (NameError "sun_hours") /\
  solar_radiation_from_sun_hours fao_globals 12 6 20
    <> Ok ((0.5 * 6 / 12 + 0.25) * 20) /\
  solar_radiation_from_sun_hours fao_globals 12 30 20 <> Raise DomainError.
Proof.
  rewrite !solar_radiation_from_sun_hours_unbound.
  rewrite solar_radiation_from_sun_hours_unbound_argument.
  repeat split; discriminate.
Qed.

Lemma et_radiation_unbound (latitude sd sha irl : R) :
  et_radiation fao_globals latitude sd sha irl
    = Raise (NameError "_check_latitude_in_radians").
Proof. reflexivity. Qed.

(** With the two validators bound, the declination check is on the
    latitude: a latitude in [-0.4093, 0.4093] passes both checks whatever
    [sd] is, and a latitude above 0.4093 is rejected whatever [sd] is. *)
Lemma et_radiation_low_latitude (latitude sd sha irl : R) :
  - 0.4093 <= latitude <= 0.4093 ->
  et_radiation expected_globals latitude sd sha irl
    = Ok (24.0 * 60.0 / PI * SOLAR_CONSTANT * irl
          * (sha * sin latitude * sin sd
             + cos latitude * cos sd * sin sha)).
Proof.
  intros Hlat. pose proof PI2_1 as Hpi2. unfold et_radiation.
  rewrite expected_check_latitude. cbn [bind call1].
  rewrite check_latitude_ok by lra. cbn [bind].
  rewrite expected_check_solar_declination. cbn [bind call1].
  rewrite check_solar_declination_ok by exact Hlat. cbn [bind].
  rewrite truediv_nonzero by apply math_pi_nonzero. reflexivity.
Qed.

Lemma et_radiation_high_latitude (latitude sd sha irl : R) :
  0.4093 < latitude <= PI / 2 ->
  et_radiation expected_globals latitude sd sha irl = Raise DomainError.
Proof.
  intros Hlat. pose proof PI2_1 as Hpi2. unfold et_radiation.
  rewrite expected_check_latitude. cbn [bind call1].
  rewrite check_latitude_ok by lra. cbn [bind].
  rewrite expected_check_solar_declination. cbn [bind call1].
  rewrite check_solar_declination_fails by lra. reflexivity.
Qed.

(** C2: the code does not do what the claim says.  At the equator a solar
    declination of 1 radian, which the validator of the declination
    rejects, raises no [DomainError]: the call raises [NameError] on
    [_check_latitude_in_radians], a name the module binds nothing to, and
    with the validators bound it returns a value, because [et_radiation]
    hands [latitude] to the validator of the declination and never looks
    at [sd]. *)
Theorem et_radiation_unchecked_declination :
  check_solar_declination_in_radians 1 = Raise DomainError /\
  et_radiation fao_globals 0 1 1 1
    = Raise (NameError "_check_latitude_in_radians") /\
  et_radiation expected_globals 0 1 1 1
    = Ok (24.0 * 60.0 / PI * SOLAR_CONSTANT * 1
          * (1 * sin 0 * sin 1 + cos 0 * cos 1 * sin 1)).
Proof.
  split; [| split].
  - apply check_solar_declination_fails. lra.
  - apply et_radiation_unbound.
  - apply et_radiation_low_latitude. lra.
Qed.

(** ** Hargreaves *)

Lemma is_integer_half : is_integer 0.5 = false.
Proof.
  unfold is_integer.
  assert (E : Int_part 0.5 = 0%Z) by (symmetry; apply Int_part_spec; lra).
  rewrite E.
  destruct (Req_dec_T 0 0.5) as [H | _]; [lra | reflexivity].
Qed.

Lemma Rpower_half (x : R) : 0 < x -> Rpower x 0.5 = sqrt x.
Proof.
  intros Hx. replace 0.5 with (/ 2) by lra. apply Rpower_sqrt, Hx.
Qed.

(** The square root by [** 0.5]: the real one on a radicand that is not
    negative, an imaginary number on a negative one. *)
Lemma float_pow_half_nonneg (x : R) :
  0 <= x -> float_pow x 0.5 = Ok (PyFloat (sqrt x)).
Proof.
  intros Hx. unfold float_pow.
  destruct (Rlt_dec 0 x) as [Hpos | Hnpos].
  - rewrite Rpower_half by exact Hpos. reflexivity.
  - destruct (Req_dec_T x 0) as [-> | N]; [| lra].
    destruct (Rlt_dec 0 0.5); [| lra].
    rewrite sqrt_0. reflexivity.
Qed.

Lemma float_pow_half_neg (x : R) :
  x < 0 -> float_pow x 0.5 = Ok (PyComplex 0 (sqrt (- x))).
Proof.
  intros Hx. unfold float_pow.
  destruct (Rlt_dec 0 x); [lra |].
  destruct (Req_dec_T x 0); [lra |].
  rewrite is_integer_half.
  rewrite Rpower_half by lra.
  replace (PI * 0.5) with (PI / 2) by lra.
  rewrite cos_PI2, sin_PI2.
  do 2 f_equal; ring.
Qed.

Lemma hargreaves_value (tmin tmax tmean Ra : R) :
  tmin <= tmax ->
  hargreaves tmin tmax tmean Ra
    = Ok (PyFloat (0.0023 * (tmean + 17.8) * sqrt (tmax - tmin) * Ra)).
Proof.
  intros Ht. unfold hargreaves.
  rewrite float_pow_half_nonneg by lra. reflexivity.
Qed.

Lemma hargreaves_negative_radicand (tmin tmax tmean Ra : R) :
  tmax < tmin ->
  hargreaves tmin tmax tmean Ra
    = Ok (PyComplex 0 (0.0023 * (tmean + 17.8) * sqrt (tmin - tmax) * Ra)).
Proof.
  intros Ht. unfold hargreaves.
  rewrite float_pow_half_neg by lra. simpl.
  replace (- (tmax - tmin)) with (tmin - tmax) by ring.
  do 2 f_equal; ring.
Qed.

(** C1: the code does not do what the claim says.  With tmin = 26 and
    tmax = 20 the radicand is -6; [hargreaves] raises nothing and returns
    a complex number, where [solar_radiation_from_t], which takes the same
    root with [math.sqrt], raises [ValueError]. *)
Theorem hargreaves_returns_complex :
  hargreaves 26 20 23 15
    = Ok (PyComplex 0 (0.0023 * (23 + 17.8) * sqrt (26 - 20) * 15)) /\
  hargreaves 26 20 23 15 <> Raise DomainError /\
  solar_radiation_from_t 25 20 26 20 false = Raise DomainError.
Proof.
  rewrite hargreaves_negative_radicand by lra.
  repeat split; [discriminate |].
  unfold solar_radiation_from_t.
  rewrite math_sqrt_neg by lra. reflexivity.
Qed.

(** * Further properties of the estimators *)

(** ** Powers and logarithms of the [math] module *)

Lemma is_integer_IZR (z : Z) : is_integer (IZR z) = true.
Proof.
  unfold is_integer.
  assert (E : Int_part (IZR z) = z) by (symmetry; apply Int_part_spec; lra).
  rewrite E.
  destruct (Req_dec_T (IZR z) (IZR z)) as [_ | N]; [reflexivity | now elim N].
Qed.

Lemma Int_part_IZR (z : Z) : Int_part (IZR z) = z.
Proof. symmetry. apply Int_part_spec. lra. Qed.

Lemma math_pow_2 (x : R) : math_pow x 2 = Ok (x * x).
Proof.
  unfold math_pow.
  destruct (Rlt_dec 0 x) as [Hpos | Hnpos].
  - replace 2 with (INR 2) by (simpl; lra).
    rewrite Rpower_pow by exact Hpos. f_equal. simpl. ring.
  - destruct (Req_dec_T x 0) as [-> | Hnz].
    + destruct (Rlt_dec 0 2); [f_equal; ring | lra].
    + rewrite (is_integer_IZR 2), (Int_part_IZR 2). f_equal. simpl. ring.
Qed.

Lemma math_pow_4 (x : R) : math_pow x 4 = Ok (x * x * (x * x)).
Proof.
  unfold math_pow.
  destruct (Rlt_dec 0 x) as [Hpos | Hnpos].
  - replace 4 with (INR 4) by (simpl; lra).
    rewrite Rpower_pow by exact Hpos. f_equal. simpl. ring.
  - destruct (Req_dec_T x 0) as [-> | Hnz].
    + destruct (Rlt_dec 0 4); [f_equal; ring | lra].
    + rewrite (is_integer_IZR 4), (Int_part_IZR 4). f_equal. simpl. ring.
Qed.

Lemma is_integer_5_26 : is_integer 5.26 = false.
Proof.
  unfold is_integer.
  assert (E : Int_part 5.26 = 5%Z) by (symmetry; apply Int_part_spec; lra).
  rewrite E.
  destruct (Req_dec_T 5 5.26) as [H | _]; [lra | reflexivity].
Qed.

(** ** Saturation vapour pressure, continued *)

Lemma es_from_t_raise (t : R) (e : exn) :
  es_from_t t = Raise e -> e = ZeroDivisionError.
Proof.
  unfold es_from_t, truediv.
  destruct (Req_dec_T (t + 237.3) 0); simpl; congruence.
Qed.

(** X1: [es_from_t] raises [ZeroDivisionError] at t = -237.3, where the
    exponent has its pole, and everywhere else returns a positive
    pressure. *)
Theorem es_from_t_defined (t : R) :
  (t = - 237.3 -> es_from_t t = Raise ZeroDivisionError) /\
  (t <> - 237.3 -> exists e : R, es_from_t t = Ok e /\ 0 < e).
Proof.
  split.
  - intros ->. apply es_from_t_pole.
  - intros Ht. eexists. split.
    + apply es_from_t_value. lra.
    + pose proof (exp_pos (17.27 * t / (t + 237.3))). lra.
Qed.

Lemma exponent_increasing (t1 t2 : R) :
  - 237.3 < t1 -> t1 < t2 ->
  17.27 * t1 / (t1 + 237.3) < 17.27 * t2 / (t2 + 237.3).
Proof.
  intros H1 H12.
  enough (0 < 17.27 * t2 / (t2 + 237.3) - 17.27 * t1 / (t1 + 237.3)) by lra.
  replace (17.27 * t2 / (t2 + 237.3) - 17.27 * t1 / (t1 + 237.3))
    with (17.27 * 237.3 * (t2 - t1) / ((t1 + 237.3) * (t2 + 237.3)))
    by (field; lra).
  apply Rdiv_lt_0_compat.
  - apply Rmult_lt_0_compat; lra.
  - apply Rmult_lt_0_compat; lra.
Qed.

(** X2: above -237.3 degrees the saturation vapour pressure is strictly
    increasing in the temperature. *)
Theorem es_from_t_increasing (t1 t2 : R) :
  - 237.3 < t1 -> t1 < t2 ->
  exists e1 e2 : R,
    es_from_t t1 = Ok e1 /\ es_from_t t2 = Ok e2 /\ e1 < e2.
Proof.
  intros H1 H12.
  exists (0.6108 * exp (17.27 * t1 / (t1 + 237.3))),
         (0.6108 * exp (17.27 * t2 / (t2 + 237.3))).
  split; [apply es_from_t_value; lra |].
  split; [apply es_from_t_value; lra |].
  pose proof (exp_increasing _ _ (exponent_increasing t1 t2 H1 H12)). lra.
Qed.

Lemma es_from_t_increasing_witness :
  - 237.3 < 10 /\ 10 < 25 /\
  exists e1 e2 : R,
    es_from_t 10 = Ok e1 /\ es_from_t 25 = Ok e2 /\ e1 < e2.
Proof.
  split; [lra |]. split; [lra |].
  apply (es_from_t_increasing 10 25); lra.
Defined.

(** X3: for -237.3 < tmin <= tmax the mean saturation vapour pressure lies
    between the pressures at tmin and at tmax. *)
Theorem mean_es_between (tmin tmax : R) :
  - 237.3 < tmin -> tmin <= tmax ->
  exists m e_tmin e_tmax : R,
    mean_es tmin tmax = Ok m /\
    es_from_t tmin = Ok e_tmin /\ es_from_t tmax = Ok e_tmax /\
    e_tmin <= m <= e_tmax.
Proof.
  intros H1 H12.
  assert (Hle : exp (17.27 * tmin / (tmin + 237.3))
                <= exp (17.27 * tmax / (tmax + 237.3))).
  { destruct H12 as [Hlt | ->]; [| lra].
    left. apply exp_increasing, exponent_increasing; lra. }
  unfold mean_es.
  rewrite !es_from_t_value by lra. simpl.
  rewrite truediv_nonzero by lra.
  do 3 eexists. repeat split; lra.
Qed.

Lemma mean_es_between_witness :
  - 237.3 < 10 /\ 10 <= 25 /\
  exists m e_tmin e_tmax : R,
    mean_es 10 25 = Ok m /\
    es_from_t 10 = Ok e_tmin /\ es_from_t 25 = Ok e_tmax /\
    e_tmin <= m <= e_tmax.
Proof.
  split; [lra |]. split; [lra |].
  apply (mean_es_between 10 25); lra.
Defined.

(** [mean_es] does not depend on the order of its two temperatures,
    failures included. *)
Lemma mean_es_symmetric (a b : R) : mean_es a b = mean_es b a.
Proof.
  unfold mean_es.
  destruct (es_from_t a) as [ea | xa] eqn:Ea,
           (es_from_t b) as [eb | xb] eqn:Eb; simpl; try reflexivity.
  - rewrite !truediv_nonzero by lra. f_equal. lra.
  - apply es_from_t_raise in Ea, Eb. congruence.
Qed.

(** X4: away from t = -237.3 the slope of the vapour pressure curve is
    4098 times the saturation vapour pressure over (t + 237.3) squared,
    and is positive; at t = -237.3 the function raises
    [ZeroDivisionError]. *)
Theorem delta_sat_vap_pressure_spec (t : R) :
  (t = - 237.3 -> delta_sat_vap_pressure t = Raise ZeroDivisionError) /\
  (t <> - 237.3 ->
   exists e d : R,
     es_from_t t = Ok e /\
     delta_sat_vap_pressure t = Ok d /\
     d = 4098 * e / ((t + 237.3) * (t + 237.3)) /\
     0 < d).
Proof.
  split.
  - intros ->. unfold delta_sat_vap_pressure.
    replace (- 237.3 + 237.3) with 0 by lra.
    rewrite truediv_zero. reflexivity.
  - intros Ht.
    assert (Hsq : 0 < (t + 237.3) * (t + 237.3)) by nra.
    pose proof (exp_pos (17.27 * t / (t + 237.3))) as Hexp.
    exists (0.6108 * exp (17.27 * t / (t + 237.3))).
    eexists. split; [apply es_from_t_value; lra |].
    unfold delta_sat_vap_pressure.
    rewrite truediv_nonzero by lra. simpl.
    rewrite math_pow_2. simpl.
    rewrite truediv_nonzero by lra.
    split; [reflexivity |]. split; [reflexivity |].
    apply Rdiv_lt_0_compat; lra.
Qed.

(** ** Relative humidity and actual vapour pressure *)

(** [rh_from_ea_es] raises [ZeroDivisionError] exactly when the
    saturation vapour pressure is zero, and otherwise returns
    100 * ea / es. *)
Lemma rh_from_ea_es_spec (ea es : R) :
  (rh_from_ea_es ea es = Raise ZeroDivisionError <-> es = 0) /\
  (es <> 0 -> rh_from_ea_es ea es = Ok (100 * ea / es)).
Proof.
  unfold rh_from_ea_es, truediv.
  destruct (Req_dec_T es 0) as [E | N].
  - split; [tauto | contradiction].
  - split; [split; [discriminate | contradiction] |].
    intros _. f_equal. lra.
Qed.

(** X5: the actual vapour pressure from the dewpoint, over the saturation
    vapour pressure at the same temperature, is a relative humidity of
    exactly 100 percent. *)
Theorem rh_at_dewpoint (t : R) :
  t <> - 237.3 ->
  (ea <- ea_from_tdew t ;; es <- es_from_t t ;; rh_from_ea_es ea es)
    = Ok 100.
Proof.
  intros Ht. pose proof (exp_pos (17.27 * t / (t + 237.3))) as Hexp.
  rewrite ea_from_tdew_is_es_from_t, es_from_t_value by lra. simpl.
  unfold rh_from_ea_es. rewrite truediv_nonzero by lra.
  f_equal.
  assert (Hx : 0.6108 * exp (17.27 * t / (t + 237.3)) <> 0) by lra.
  unfold Rdiv. rewrite Rmult_assoc, Rinv_r by exact Hx. lra.
Qed.

Lemma rh_at_dewpoint_witness :
  15 <> - 237.3 /\
  (ea <- ea_from_tdew 15 ;; es <- es_from_t 15 ;; rh_from_ea_es ea es)
    = Ok 100.
Proof.
  split; [lra | apply (rh_at_dewpoint 15); lra].
Defined.

(** X6: the actual vapour pressure from the minimum temperature, over the
    saturation vapour pressure at the same temperature, is a relative
    humidity of 100 * 0.611 / 0.6108 percent, above 100, whatever the
    temperature. *)
Theorem rh_at_tmin_exceeds_100 (t : R) :
  t <> - 237.3 ->
  exists rh : R,
    (ea <- ea_from_tmin t ;; es <- es_from_t t ;; rh_from_ea_es ea es)
      = Ok rh /\
    rh = 100 * 0.611 / 0.6108 /\ 100 < rh.
Proof.
  intros Ht. pose proof (exp_pos (17.27 * t / (t + 237.3))) as Hexp.
  exists (100 * 0.611 / 0.6108).
  split; [| split; [reflexivity | lra]].
  rewrite ea_from_tmin_value, es_from_t_value by lra. simpl.
  unfold rh_from_ea_es. rewrite truediv_nonzero by lra.
  f_equal.
  assert (He : exp (17.27 * t / (t + 237.3)) <> 0) by lra.
  generalize dependent (exp (17.27 * t / (t + 237.3))). intros e _ He.
  replace 100.0 with 100 by lra.
  field. lra.
Qed.

Lemma rh_at_tmin_exceeds_100_witness :
  15 <> - 237.3 /\
  exists rh : R,
    (ea <- ea_from_tmin 15 ;; es <- es_from_t 15 ;; rh_from_ea_es ea es)
      = Ok rh /\
    rh = 100 * 0.611 / 0.6108 /\ 100 < rh.
Proof.
  split; [lra | apply (rh_at_tmin_exceeds_100 15); lra].
Defined.

Lemma ea_from_rhmin_rhmax_equal_rh (e_tmin e_tmax rh : R) :
  ea_from_rhmin_rhmax e_tmin e_tmax rh rh = ea_from_rhmean e_tmin e_tmax rh.
Proof.
  unfold ea_from_rhmin_rhmax, ea_from_rhmean.
  rewrite !truediv_nonzero by lra. simpl.
  rewrite !truediv_nonzero by lra. simpl.
  f_equal. lra.
Qed.

(** X7: the three estimators from relative humidity agree where their
    inputs coincide: with one humidity for the minimum and the maximum
    [ea_from_rhmin_rhmax] is [ea_from_rhmean]; with one saturation
    pressure for both temperatures [ea_from_rhmean] is [ea_from_rhmax];
    and at 100 percent [ea_from_rhmax] returns the saturation pressure
    itself. *)
Theorem ea_from_rh_estimators_agree (e_tmin e_tmax e rh : R) :
  ea_from_rhmin_rhmax e_tmin e_tmax rh rh = ea_from_rhmean e_tmin e_tmax rh /\
  ea_from_rhmean e e rh = ea_from_rhmax e rh /\
  ea_from_rhmax e 100 = Ok e.
Proof.
  split; [apply ea_from_rhmin_rhmax_equal_rh |].
  unfold ea_from_rhmean, ea_from_rhmax.
  rewrite !truediv_nonzero by lra. simpl.
  split; f_equal; lra.
Qed.

(** X8: with saturation pressures that are not negative and relative
    humidities between 0 and 100, the actual vapour pressure of
    [ea_from_rhmin_rhmax] is not negative and not above the mean of the
    two saturation pressures. *)
Theorem ea_from_rhmin_rhmax_bounds (e_tmin e_tmax rh_min rh_max : R) :
  0 <= e_tmin -> 0 <= e_tmax ->
  0 <= rh_min <= 100 -> 0 <= rh_max <= 100 ->
  exists ea : R,
    ea_from_rhmin_rhmax e_tmin e_tmax rh_min rh_max = Ok ea /\
    0 <= ea <= (e_tmin + e_tmax) / 2.
Proof.
  intros H1 H2 [Hl1 Hu1] [Hl2 Hu2].
  unfold ea_from_rhmin_rhmax.
  rewrite !truediv_nonzero by lra. simpl.
  rewrite !truediv_nonzero by lra.
  eexists. split; [reflexivity |].
  split; nra.
Qed.

Lemma ea_from_rhmin_rhmax_bounds_witness :
  0 <= 1 /\ 0 <= 3 /\ 0 <= 40 <= 100 /\ 0 <= 80 <= 100 /\
  exists ea : R,
    ea_from_rhmin_rhmax 1 3 40 80 = Ok ea /\
    0 <= ea <= (1 + 3) / 2.
Proof.
  repeat (split; [lra |]).
  apply (ea_from_rhmin_rhmax_bounds 1 3 40 80); lra.
Defined.

(** X9: with a dry bulb not colder than the wet bulb and a psychrometric
    constant that is not negative, [ea_from_twet_tdry] is not above the
    saturation pressure at the wet bulb, with equality when the two
    temperatures agree. *)
Theorem ea_from_twet_tdry_le (twet tdry e_twet psy_const : R) :
  twet <= tdry -> 0 <= psy_const ->
  ea_from_twet_tdry twet tdry e_twet psy_const <= e_twet /\
  ea_from_twet_tdry twet twet e_twet psy_const = e_twet.
Proof.
  intros Ht Hp. unfold ea_from_twet_tdry. split; [nra | ring].
Qed.

Lemma ea_from_twet_tdry_le_witness :
  18 <= 25 /\ 0 <= 0.0008 * 101.3 /\
  ea_from_twet_tdry 18 25 2.06 (0.0008 * 101.3) <= 2.06 /\
  ea_from_twet_tdry 18 18 2.06 (0.0008 * 101.3) = 2.06.
Proof.
  split; [lra |]. split; [lra |].
  apply (ea_from_twet_tdry_le 18 25 2.06 (0.0008 * 101.3)); lra.
Defined.

(** ** Solar declination and day length *)

(** X10: [solar_declination] raises [NameError] on [_check_doy] for every
    day of the year, the days 1 to 366 included: the module imports
    [check_doy] and the function calls [_check_doy].  The chain from the
    day of the year to the day length, through the declination and the
    sunset hour angle, therefore fails at its first step. *)
Theorem solar_declination_raises (latitude : R) (doy : Z) :
  solar_declination fao_globals doy = Raise (NameError "_check_doy") /\
  (sd <- solar_declination fao_globals doy ;;
   sha <- sunset_hour_angle fao_globals latitude sd ;;
   daylight_hours sha) = Raise (NameError "_check_doy").
Proof.
  assert (E : solar_declination fao_globals doy
              = Raise (NameError "_check_doy")) by reflexivity.
  split; [exact E |].
  rewrite E. reflexivity.
Qed.





(** ** Radiation, continued *)

(** X16: [solar_radiation_from_t] raises [ValueError], from [math.sqrt],
    exactly when tmax < tmin. *)
Theorem solar_radiation_from_t_raises_iff
    (et_rad cs_rad tmin tmax : R) (coastal : bool) :
  solar_radiation_from_t et_rad cs_rad tmin tmax coastal = Raise ValueError
  <-> tmax < tmin.
Proof.
  unfold solar_radiation_from_t, math_sqrt.
  destruct (Rlt_dec (tmax - tmin) 0) as [H | H]; simpl.
  - split; [lra | reflexivity].
  - split; [discriminate | lra].
Qed.

(** X17: for an altitude between 0 and 12500 m and an extraterrestrial
    radiation that is not negative, the clear sky radiation lies between
    75 percent and all of the extraterrestrial radiation. *)
Theorem clear_sky_radiation_bounds (altitude et_rad : R) :
  0 <= altitude <= 12500 -> 0 <= et_rad ->
  0.75 * et_rad <= clear_sky_radiation altitude et_rad <= et_rad.
Proof.
  intros [Hl Hu] Het. unfold clear_sky_radiation. split; nra.
Qed.

Lemma clear_sky_radiation_bounds_witness :
  0 <= 100 <= 12500 /\ 0 <= 25 /\
  0.75 * 25 <= clear_sky_radiation 100 25 <= 25.
Proof.
  split; [lra |]. split; [lra |].
  apply (clear_sky_radiation_bounds 100 25); lra.
Defined.

(** X18: with an albedo in [0, 1] and a solar radiation that is not
    negative, the net incoming radiation lies between 0 and the solar
    radiation; without an albedo argument it is 77 percent of it. *)
Theorem net_incoming_solar_radiation_bounds (sol_rad albedo : R) :
  0 <= albedo <= 1 -> 0 <= sol_rad ->
  0 <= net_incoming_solar_radiation sol_rad (Some albedo) <= sol_rad /\
  net_incoming_solar_radiation sol_rad None = 0.77 * sol_rad.
Proof.
  intros [Hl Hu] Hs. unfold net_incoming_solar_radiation. simpl.
  split; [split; nra | lra].
Qed.

Lemma net_incoming_solar_radiation_bounds_witness :
  0 <= 0.3 <= 1 /\ 0 <= 20 /\
  0 <= net_incoming_solar_radiation 20 (Some 0.3) <= 20 /\
  net_incoming_solar_radiation 20 None = 0.77 * 20.
Proof.
  split; [lra |]. split; [lra |].
  apply (net_incoming_solar_radiation_bounds 20 0.3); lra.
Defined.

Lemma net_outgoing_longwave_radiation_value
    (tmin tmax sol_rad clear_sky_rad ea : R) :
  0 <= ea -> clear_sky_rad <> 0 ->
  net_outgoing_longwave_radiation tmin tmax sol_rad clear_sky_rad ea
    = Ok (STEFAN_BOLTZMANN_CONSTANT * ((tmax ^ 4 + tmin ^ 4) / 2)
          * (0.34 - 0.14 * sqrt ea)
          * (1.35 * (sol_rad / clear_sky_rad) - 0.35)).
Proof.
  intros Hea Hcs. unfold net_outgoing_longwave_radiation.
  rewrite !math_pow_4. simpl.
  rewrite truediv_nonzero by lra. simpl.
  rewrite math_sqrt_nonneg by exact Hea. simpl.
  rewrite truediv_nonzero by exact Hcs. simpl.
  replace (tmax * (tmax * (tmax * (tmax * 1))))
    with (tmax * tmax * (tmax * tmax)) by ring.
  replace (tmin * (tmin * (tmin * (tmin * 1))))
    with (tmin * tmin * (tmin * tmin)) by ring.
  reflexivity.
Qed.

(** X19: [net_outgoing_longwave_radiation] raises [ValueError] on a
    negative vapour pressure (also when the clear sky radiation is zero:
    the square root is taken first), [ZeroDivisionError] on a zero clear
    sky radiation otherwise, and else returns the product of the
    Stefan-Boltzmann, humidity and cloudiness terms. *)
Theorem net_outgoing_longwave_radiation_spec
    (tmin tmax sol_rad clear_sky_rad ea : R) :
  (ea < 0 ->
   net_outgoing_longwave_radiation tmin tmax sol_rad clear_sky_rad ea
     = Raise ValueError) /\
  (0 <= ea -> clear_sky_rad = 0 ->
   net_outgoing_longwave_radiation tmin tmax sol_rad clear_sky_rad ea
     = Raise ZeroDivisionError) /\
  (0 <= ea -> clear_sky_rad <> 0 ->
   net_outgoing_longwave_radiation tmin tmax sol_rad clear_sky_rad ea
     = Ok (STEFAN_BOLTZMANN_CONSTANT * ((tmax ^ 4 + tmin ^ 4) / 2)
           * (0.34 - 0.14 * sqrt ea)
           * (1.35 * (sol_rad / clear_sky_rad) - 0.35))).
Proof.
  split; [| split].
  - intros Hea. unfold net_outgoing_longwave_radiation.
    rewrite !math_pow_4. simpl.
    rewrite truediv_nonzero by lra. simpl.
    rewrite math_sqrt_neg by exact Hea. reflexivity.
  - intros Hea ->. unfold net_outgoing_longwave_radiation.
    rewrite !math_pow_4. simpl.
    rewrite truediv_nonzero by lra. simpl.
    rewrite math_sqrt_nonneg by exact Hea. simpl.
    rewrite truediv_zero. reflexivity.
  - apply net_outgoing_longwave_radiation_value.
Qed.

(** X20: the net outgoing longwave radiation is not negative when the
    vapour pressure is in [0, 5.89] kPa, the clear sky radiation is
    positive and the solar radiation is at least 0.35/1.35 of it. *)
Theorem net_outgoing_longwave_radiation_nonneg
    (tmin tmax sol_rad clear_sky_rad ea : R) :
  0 <= ea <= 5.89 -> 0 < clear_sky_rad ->
  0.35 * clear_sky_rad <= 1.35 * sol_rad ->
  exists r : R,
    net_outgoing_longwave_radiation tmin tmax sol_rad clear_sky_rad ea
      = Ok r /\ 0 <= r.
Proof.
  intros [Hl Hu] Hcs Hsol.
  rewrite net_outgoing_longwave_radiation_value by lra.
  eexists. split; [reflexivity |].
  assert (H1 : 0 <= STEFAN_BOLTZMANN_CONSTANT * ((tmax ^ 4 + tmin ^ 4) / 2)).
  { unfold STEFAN_BOLTZMANN_CONSTANT.
    assert (0 <= tmax ^ 4) by (simpl; nra).
    assert (0 <= tmin ^ 4) by (simpl; nra).
    apply Rmult_le_pos; lra. }
  assert (H2 : 0 <= 0.34 - 0.14 * sqrt ea).
  { assert (Hs : sqrt ea <= sqrt (2.428 * 2.428))
      by (apply sqrt_le_1; lra).
    rewrite sqrt_square in Hs by lra. lra. }
  assert (H3 : 0 <= 1.35 * (sol_rad / clear_sky_rad) - 0.35).
  { assert (Hq : 0.35 / 1.35 <= sol_rad / clear_sky_rad).
    { apply Rmult_le_reg_r with (r := clear_sky_rad); [exact Hcs |].
      unfold Rdiv at 2. rewrite Rmult_assoc, Rinv_l by lra. lra. }
    lra. }
  apply Rmult_le_pos; [apply Rmult_le_pos |]; assumption.
Qed.

Lemma net_outgoing_longwave_radiation_nonneg_witness :
  0 <= 2.1 <= 5.89 /\ 0 < 18.8 /\ 0.35 * 18.8 <= 1.35 * 14.5 /\
  exists r : R,
    net_outgoing_longwave_radiation 292.25 298.25 14.5 18.8 2.1
      = Ok r /\ 0 <= r.
Proof.
  split; [lra |]. split; [lra |]. split; [lra |].
  apply (net_outgoing_longwave_radiation_nonneg 292.25 298.25 14.5 18.8 2.1);
    lra.
Defined.

(** ** Atmospheric pressure and psychrometric constant *)

Lemma Rpower_one_base (y : R) : Rpower 1 y = 1.
Proof. unfold Rpower. rewrite ln_1, Rmult_0_r. apply exp_0. Qed.

Lemma atmospheric_pressure_value (altitude : R) :
  0.0065 * altitude < 293 ->
  atmospheric_pressure altitude
    = Ok (Rpower ((293.0 - 0.0065 * altitude) / 293.0) 5.26 * 101.3).
Proof.
  intros H. unfold atmospheric_pressure.
  rewrite truediv_nonzero by lra. simpl.
  unfold math_pow.
  destruct (Rlt_dec 0 ((293.0 - 0.0065 * altitude) / 293.0)) as [_ | N];
    [reflexivity |].
  elim N. apply Rdiv_lt_0_compat; lra.
Qed.

(** X21: [atmospheric_pressure] raises [ValueError] exactly for the
    altitudes above 293/0.0065 m, where the base of the power is negative;
    at that altitude itself it returns 0. *)
Theorem atmospheric_pressure_domain (altitude : R) :
  (atmospheric_pressure altitude = Raise ValueError
   <-> 293 < 0.0065 * altitude) /\
  (0.0065 * altitude = 293 -> atmospheric_pressure altitude = Ok 0).
Proof.
  destruct (Rlt_dec (0.0065 * altitude) 293) as [Hlt | Hge].
  - rewrite atmospheric_pressure_value by exact Hlt.
    split; [split; [discriminate | lra] | lra].
  - unfold atmospheric_pressure.
    rewrite truediv_nonzero by lra. simpl. unfold math_pow.
    destruct (Rlt_dec 0 ((293.0 - 0.0065 * altitude) / 293.0)) as [P | _].
    { exfalso. apply Rmult_lt_compat_r with (r := 293.0) in P; [| lra].
      unfold Rdiv in P. rewrite Rmult_assoc, Rinv_l in P by lra. lra. }
    destruct (Req_dec_T ((293.0 - 0.0065 * altitude) / 293.0) 0) as [Z | NZ].
    + assert (E : 0.0065 * altitude = 293).
      { apply Rmult_eq_compat_r with (r := 293.0) in Z.
        unfold Rdiv in Z. rewrite Rmult_assoc, Rinv_l in Z by lra. lra. }
      destruct (Rlt_dec 0 5.26); [| lra]. simpl.
      split; [split; [discriminate | lra] |].
      intros _. f_equal. ring.
    + assert (E : 0.0065 * altitude <> 293).
      { intros E. apply NZ. replace (293.0 - 0.0065 * altitude) with 0 by lra.
        unfold Rdiv. ring. }
      rewrite is_integer_5_26. simpl.
      split; [split; [lra | reflexivity] | contradiction].
Qed.

(** X22: the pressure is 101.3 kPa at sea level, positive below
    293/0.0065 m, and strictly decreasing in the altitude there. *)
Theorem atmospheric_pressure_decreasing (a1 a2 : R) :
  a1 < a2 -> 0.0065 * a2 < 293 ->
  atmospheric_pressure 0 = Ok 101.3 /\
  exists p1 p2 : R,
    atmospheric_pressure a1 = Ok p1 /\
    atmospheric_pressure a2 = Ok p2 /\
    0 < p2 < p1.
Proof.
  intros H12 H2. split.
  - rewrite atmospheric_pressure_value by lra.
    replace ((293.0 - 0.0065 * 0) / 293.0) with 1 by (replace 293.0 with 293 by lra; field).
    rewrite Rpower_one_base. f_equal. lra.
  - rewrite !atmospheric_pressure_value by lra.
    do 2 eexists. split; [reflexivity |]. split; [reflexivity |].
    assert (Hb2 : 0 < (293.0 - 0.0065 * a2) / 293.0)
      by (apply Rdiv_lt_0_compat; lra).
    assert (Hb : (293.0 - 0.0065 * a2) / 293.0
                 < (293.0 - 0.0065 * a1) / 293.0).
    { unfold Rdiv. apply Rmult_lt_compat_r; [| lra].
      apply Rinv_0_lt_compat. lra. }
    pose proof (Rlt_Rpower_l _ _ 5.26 ltac:(lra) (conj Hb2 Hb)) as Hp.
    assert (Hpos : 0 < Rpower ((293.0 - 0.0065 * a2) / 293.0) 5.26)
      by (unfold Rpower; apply exp_pos).
    split; lra.
Qed.

Lemma atmospheric_pressure_decreasing_witness :
  0 < 1800 /\ 0.0065 * 1800 < 293 /\
  atmospheric_pressure 0 = Ok 101.3 /\
  exists p1 p2 : R,
    atmospheric_pressure 0 = Ok p1 /\
    atmospheric_pressure 1800 = Ok p2 /\
    0 < p2 < p1.
Proof.
  split; [lra |]. split; [lra |].
  apply (atmospheric_pressure_decreasing 0 1800); lra.
Defined.

(** X23: at a positive pressure the psychrometric constants are ordered:
    the ventilated psychrometer (type 1) is below the standard constant of
    [psychrometric_const], which is below the naturally ventilated one
    (type 2), which is below the unventilated one (type 3). *)
Theorem psychrometric_constants_ordered (atmos_pres : R) :
  0 < atmos_pres ->
  exists g1 g2 g3 : R,
    psychrometric_const_of_psychrometer 1 atmos_pres = Ok g1 /\
    psychrometric_const_of_psychrometer 2 atmos_pres = Ok g2 /\
    psychrometric_const_of_psychrometer 3 atmos_pres = Ok g3 /\
    g1 < psychrometric_const atmos_pres < g2 /\ g2 < g3.
Proof.
  intros Hp. do 3 eexists.
  repeat (split; [reflexivity |]).
  unfold psychrometric_const. repeat split; lra.
Qed.

Lemma psychrometric_constants_ordered_witness :
  0 < 101.3 /\
  exists g1 g2 g3 : R,
    psychrometric_const_of_psychrometer 1 101.3 = Ok g1 /\
    psychrometric_const_of_psychrometer 2 101.3 = Ok g2 /\
    psychrometric_const_of_psychrometer 3 101.3 = Ok g3 /\
    g1 < psychrometric_const 101.3 < g2 /\ g2 < g3.
Proof.
  split; [lra | apply (psychrometric_constants_ordered 101.3); lra].
Defined.

(** ** Temperature and soil heat flux *)

(** The daily mean temperature lies between the minimum and the
    maximum. *)
Lemma daily_mean_t_between (tmin tmax : R) :
  tmin <= tmax ->
  exists m : R, daily_mean_t tmin tmax = Ok m /\ tmin <= m <= tmax.
Proof.
  intros H. unfold daily_mean_t.
  rewrite truediv_nonzero by lra.
  eexists. split; [reflexivity | lra].
Qed.

Lemma daily_mean_t_between_witness :
  10 <= 25 /\
  exists m : R, daily_mean_t 10 25 = Ok m /\ 10 <= m <= 25.
Proof.
  split; [lra | apply (daily_mean_t_between 10 25); lra].
Defined.

(** X24: [daily_soil_heat_flux] raises [ValueError] exactly when the time
    step is below one day; from one day on it returns
    capacity * (t_cur - t_prev) / delta_t * depth, with the capacity 2.1
    and the depth 0.1 when these are not given. *)
Theorem daily_soil_heat_flux_spec
    (t_cur t_prev delta_t : R) (soil_heat_cap delta_z : option R) :
  (daily_soil_heat_flux t_cur t_prev delta_t soil_heat_cap delta_z
     = Raise ValueError <-> delta_t < 1) /\
  (1 <= delta_t ->
   daily_soil_heat_flux t_cur t_prev delta_t soil_heat_cap delta_z
     = Ok (default_arg soil_heat_cap 2.1
           * ((t_cur - t_prev) / delta_t)
           * default_arg delta_z 0.1)) /\
  (1 <= delta_t ->
   daily_soil_heat_flux t_cur t_prev delta_t None None
     = Ok (2.1 * ((t_cur - t_prev) / delta_t) * 0.1)).
Proof.
  unfold daily_soil_heat_flux.
  destruct (Rlt_dec delta_t 1.0) as [Hlt | Hge].
  - repeat split; try reflexivity; lra.
  - rewrite truediv_nonzero by lra. simpl.
    repeat split; try reflexivity; try discriminate; lra.
Qed.

(** ** Reference evapotranspiration *)

(** X25: with the temperature range in order, the mean temperature at
    least -17.8 and a non-negative radiation, [hargreaves] returns a
    non-negative float. *)
Theorem hargreaves_nonneg (tmin tmax tmean Ra : R) :
  tmin <= tmax -> -17.8 <= tmean -> 0 <= Ra ->
  exists v : R,
    hargreaves tmin tmax tmean Ra = Ok (PyFloat v) /\ 0 <= v.
Proof.
  intros Ht Hm HRa. rewrite hargreaves_value by exact Ht.
  eexists. split; [reflexivity |].
  apply Rmult_le_pos; [| exact HRa].
  apply Rmult_le_pos; [lra | apply sqrt_pos].
Qed.

Lemma hargreaves_nonneg_witness :
  20 <= 26 /\ -17.8 <= 23 /\ 0 <= 15 /\
  exists v : R, hargreaves 20 26 23 15 = Ok (PyFloat v) /\ 0 <= v.
Proof.
  split; [lra |]. split; [lra |]. split; [lra |].
  apply (hargreaves_nonneg 20 26 23 15); lra.
Defined.

(** X26: [fao_penman_monteith] raises [ZeroDivisionError] exactly when the
    denominator delta_es + psy * (1 + 0.34 * ws) or the temperature is
    zero, and otherwise returns the sum of the radiation term and the wind
    term. *)
Theorem fao_penman_monteith_domain
    (Rn t ws es ea delta_es psy : R) (shf : option R) :
  (fao_penman_monteith Rn t ws es ea delta_es psy shf
     = Raise ZeroDivisionError
   <-> delta_es + psy * (1 + 0.34 * ws) = 0 \/ t = 0) /\
  (delta_es + psy * (1 + 0.34 * ws) <> 0 -> t <> 0 ->
   fao_penman_monteith Rn t ws es ea delta_es psy shf
     = Ok (0.408 * (Rn - default_arg shf 0.0) * delta_es
             / (delta_es + psy * (1 + 0.34 * ws))
           + 900 * ws / t * (es - ea) * psy
             / (delta_es + psy * (1 + 0.34 * ws)))).
Proof.
  unfold fao_penman_monteith, truediv.
  destruct (Req_dec_T (delta_es + psy * (1 + 0.34 * ws)) 0) as [D | D]; simpl.
  - split; [split; [intros _; left; exact D | reflexivity] | contradiction].
  - destruct (Req_dec_T t 0) as [T | T]; simpl.
    + split; [split; [intros _; right; exact T | reflexivity] |].
      intros _ NT. contradiction.
    + destruct (Req_dec_T (delta_es + psy * (1 + 0.34 * ws)) 0) as [D' | _];
        [contradiction |]. simpl.
      split; [split; [discriminate | intros [H | H]; contradiction] |].
      intros _ _. reflexivity.
Qed.

(** The soil heat flux enters only through the available energy
    Rn - shf: passing [shf] is the same as subtracting it from [Rn] and
    leaving the default. *)
Lemma fao_penman_monteith_shf
    (Rn t ws es ea delta_es psy shf : R) :
  fao_penman_monteith Rn t ws es ea delta_es psy (Some shf)
  = fao_penman_monteith (Rn - shf) t ws es ea delta_es psy None.
Proof.
  unfold fao_penman_monteith. simpl.
  replace (Rn - shf - 0.0) with (Rn - shf) by lra. reflexivity.
Qed.

(** X27: in still air (ws = 0) the wind term vanishes: the result does not
    depend on the vapour pressures and is the evaporation equivalent of the
    available energy, weighted by delta_es / (delta_es + psy). *)
Theorem fao_penman_monteith_no_wind
    (Rn t es ea delta_es psy : R) (shf : option R) :
  t <> 0 -> delta_es + psy <> 0 ->
  fao_penman_monteith Rn t 0 es ea delta_es psy shf
  = Ok (energy2equiv_evaporation (Rn - default_arg shf 0.0)
        * (delta_es / (delta_es + psy))).
Proof.
  intros Ht Hd. unfold fao_penman_monteith, energy2equiv_evaporation.
  assert (Hd' : delta_es + psy * (1 + 0.34 * 0) <> 0).
  { replace (delta_es + psy * (1 + 0.34 * 0)) with (delta_es + psy) by ring.
    exact Hd. }
  rewrite !truediv_nonzero by assumption. simpl.
  rewrite truediv_nonzero by assumption. simpl.
  f_equal.
  replace (delta_es + psy * (1 + 0.34 * 0)) with (delta_es + psy) by ring.
  unfold Rdiv. rewrite !Rmult_0_r, !Rmult_0_l. ring.
Qed.

Lemma fao_penman_monteith_no_wind_witness :
  293 <> 0 /\ 0.122 + 0.0666 <> 0 /\
  fao_penman_monteith 13.28 293 0 1.997 1.409 0.122 0.0666 None
  = Ok (energy2equiv_evaporation (13.28 - default_arg None 0.0)
        * (0.122 / (0.122 + 0.0666))).
Proof.
  split; [lra |]. split; [lra |].
  apply (fao_penman_monteith_no_wind 13.28 293 1.997 1.409 0.122 0.0666 None);
    lra.
Defined.

(** X28: for physically meaningful inputs (available energy and wind
    speed non-negative, positive absolute temperature, actual vapour
    pressure not above saturation, positive slope, non-negative
    psychrometric constant) the reference evapotranspiration is returned
    and is non-negative. *)
Theorem fao_penman_monteith_nonneg
    (Rn t ws es ea delta_es psy : R) (shf : option R) :
  default_arg shf 0.0 <= Rn -> 0 < t -> 0 <= ws -> ea <= es ->
  0 < delta_es -> 0 <= psy ->
  exists eto : R,
    fao_penman_monteith Rn t ws es ea delta_es psy shf = Ok eto /\
    0 <= eto.
Proof.
  intros HRn Ht Hws He Hd Hp.
  assert (Hq : 0 <= psy * (1 + 0.34 * ws))
    by (apply Rmult_le_pos; lra).
  assert (HD : 0 < delta_es + psy * (1 + 0.34 * ws)) by lra.
  unfold fao_penman_monteith.
  rewrite !truediv_nonzero by lra. simpl.
  rewrite truediv_nonzero by lra. simpl.
  eexists. split; [reflexivity |].
  assert (Hi : 0 < / (delta_es + psy * (1 + 0.34 * ws)))
    by (apply Rinv_0_lt_compat; exact HD).
  assert (Hit : 0 < / t) by (apply Rinv_0_lt_compat; exact Ht).
  unfold Rdiv. apply Rplus_le_le_0_compat.
  - apply Rmult_le_pos; [| lra].
    apply Rmult_le_pos; [| lra].
    apply Rmult_le_pos; lra.
  - apply Rmult_le_pos; [| lra].
    apply Rmult_le_pos; [| lra].
    apply Rmult_le_pos; [| lra].
    apply Rmult_le_pos; [| lra].
    apply Rmult_le_pos; lra.
Qed.

Lemma fao_penman_monteith_nonneg_witness :
  default_arg None 0.0 <= 13.28 /\ 0 < 293 /\ 0 <= 2.078 /\
  1.409 <= 1.997 /\ 0 < 0.122 /\ 0 <= 0.0666 /\
  exists eto : R,
    fao_penman_monteith 13.28 293 2.078 1.997 1.409 0.122 0.0666 None
      = Ok eto /\
    0 <= eto.
Proof.
  split; [simpl; lra |].
  split; [lra |]. split; [lra |]. split; [lra |]. split; [lra |].
  split; [lra |].
  apply (fao_penman_monteith_nonneg
           13.28 293 2.078 1.997 1.409 0.122 0.0666 None);
    simpl; lra.
Defined.

(** ** Wind speed *)

Lemma ln_zero_iff (x : R) : 0 < x -> (ln x = 0 <-> x = 1).
Proof.
  intros Hx. split.
  - intros H. apply ln_inv; [exact Hx | lra |]. rewrite ln_1. exact H.
  - intros ->. apply ln_1.
Qed.

Lemma wind_speed_2m_value (meas_ws z : R) :
  0 < 67.8 * z - 5.42 -> 67.8 * z - 5.42 <> 1 ->
  wind_speed_2m meas_ws z = Ok (meas_ws * (4.87 / ln (67.8 * z - 5.42))).
Proof.
  intros Hx H1. unfold wind_speed_2m, math_log.
  destruct (Rlt_dec 0 (67.8 * z - 5.42)) as [_ | N]; [| contradiction].
  simpl. rewrite truediv_nonzero; [reflexivity |].
  intros E. apply H1. apply ln_zero_iff; assumption.
Qed.

(** X29: [wind_speed_2m] raises [ValueError] exactly when
    67.8 * z - 5.42 <= 0 (the logarithm has no value), raises
    [ZeroDivisionError] exactly when 67.8 * z - 5.42 = 1 (the logarithm is
    zero), and between the two heights turns a positive measured speed
    into a negative one. *)
Theorem wind_speed_2m_domain (meas_ws z : R) :
  (wind_speed_2m meas_ws z = Raise ValueError
   <-> 67.8 * z - 5.42 <= 0) /\
  (wind_speed_2m meas_ws z = Raise ZeroDivisionError
   <-> 67.8 * z - 5.42 = 1) /\
  (0 < 67.8 * z - 5.42 < 1 -> 0 < meas_ws ->
   exists u : R, wind_speed_2m meas_ws z = Ok u /\ u < 0).
Proof.
  destruct (Rlt_dec 0 (67.8 * z - 5.42)) as [Hx | Hx].
  - destruct (Req_dec_T (67.8 * z - 5.42) 1) as [E | NE].
    + assert (R0 : wind_speed_2m meas_ws z = Raise ZeroDivisionError).
      { unfold wind_speed_2m, math_log.
        destruct (Rlt_dec 0 (67.8 * z - 5.42)) as [_ | N]; [| contradiction].
        simpl. rewrite E, ln_1, truediv_zero. reflexivity. }
      rewrite R0.
      split; [split; [discriminate | lra] |].
      split; [split; [intros _; exact E | reflexivity] | lra].
    + rewrite wind_speed_2m_value by assumption.
      split; [split; [discriminate | lra] |].
      split; [split; [discriminate | contradiction] |].
      intros [_ Hlt] Hws. eexists. split; [reflexivity |].
      assert (Hl : ln (67.8 * z - 5.42) < 0).
      { rewrite <- ln_1. apply ln_increasing; assumption. }
      assert (Hi : / ln (67.8 * z - 5.42) < 0)
        by (apply Rinv_lt_0_compat; exact Hl).
      unfold Rdiv. nra.
  - assert (R0 : wind_speed_2m meas_ws z = Raise ValueError).
    { unfold wind_speed_2m, math_log.
      destruct (Rlt_dec 0 (67.8 * z - 5.42)) as [P | _]; [contradiction |].
      reflexivity. }
    rewrite R0.
    split; [split; [lra | reflexivity] |].
    split; [split; [discriminate | lra] | lra].
Qed.

(** X30: above the height where 67.8 * z - 5.42 = 1, a positive measured
    speed gives a positive speed at 2 m, and the same measured speed taken
    at a greater height gives a smaller one. *)
Theorem wind_speed_2m_decreasing (meas_ws z1 z2 : R) :
  1 < 67.8 * z1 - 5.42 -> z1 < z2 -> 0 < meas_ws ->
  exists u1 u2 : R,
    wind_speed_2m meas_ws z1 = Ok u1 /\
    wind_speed_2m meas_ws z2 = Ok u2 /\
    0 < u2 < u1.
Proof.
  intros H1 H12 Hws.
  rewrite !wind_speed_2m_value by lra.
  do 2 eexists. split; [reflexivity |]. split; [reflexivity |].
  assert (L1 : 0 < ln (67.8 * z1 - 5.42)).
  { rewrite <- ln_1. apply ln_increasing; lra. }
  assert (L12 : ln (67.8 * z1 - 5.42) < ln (67.8 * z2 - 5.42))
    by (apply ln_increasing; lra).
  assert (I2 : 0 < / ln (67.8 * z2 - 5.42))
    by (apply Rinv_0_lt_compat; lra).
  assert (I12 : / ln (67.8 * z2 - 5.42) < / ln (67.8 * z1 - 5.42)).
  { apply Rinv_lt_contravar; [| exact L12].
    apply Rmult_lt_0_compat; lra. }
  unfold Rdiv. split; nra.
Qed.

Lemma wind_speed_2m_decreasing_witness :
  1 < 67.8 * 2 - 5.42 /\ 2 < 10 /\ 0 < 3.2 /\
  exists u1 u2 : R,
    wind_speed_2m 3.2 2 = Ok u1 /\
    wind_speed_2m 3.2 10 = Ok u2 /\
    0 < u2 < u1.
Proof.
  split; [lra |]. split; [lra |]. split; [lra |].
  apply (wind_speed_2m_decreasing 3.2 2 10); lra.
Defined.
